(** * Shallow embedding of the fraud-detection training DAG
    (src/dags/fd-pipeline-ml-training.py).

    Each task of the DAG is embedded as a pure function over an explicit
    description of what its external collaborators answer (HTTP responses,
    EC2 status responses, the SSH host, the file system).  The unbounded
    polling loops are embedded as structural recursion over the finite list
    of answers the collaborator gives; when that list is used up without an
    exit condition the loop is still running ([Pending]). *)

From Stdlib Require Import String List ZArith Lia Ascii Bool.
Import ListNotations.
Open Scope string_scope.

(** Newline and the decimal rendering of a build number (Python's [str]). *)
Definition nl : string := String (ascii_of_nat 10) EmptyString.

Definition digit_char (d : nat) : string :=
  String (ascii_of_nat (48 + d)) EmptyString.

Fixpoint digits_aux (fuel n : nat) : string :=
  match fuel with
  | 0 => EmptyString
  | S f =>
      if Nat.ltb n 10 then digit_char n
      else digits_aux f (Nat.div n 10) ++ digit_char (Nat.modulo n 10)
  end.

Definition py_str_nat (n : nat) : string := digits_aux (S n) n.

(** Module-level configuration read from Airflow Variables. *)
Record Config := {
  JENKINS_URL : string;
  JENKINS_USER : string;
  JENKINS_TOKEN : string;
  JENKINS_JOB_NAME : string;
  KEY_PATH : string;
  MLFLOW_TRACKING_URI : string;
  MLFLOW_EXPERIMENT_ID : string;
  AWS_ACCESS_KEY_ID : string;
  AWS_SECRET_ACCESS_KEY : string;
  BUCKET_NAME : string;
  FILE_KEY : string;
  ARTIFACT_ROOT : string
}.

(** ** Step 1: [poll_jenkins_job] (lines 73-103) *)
Module Jenkins.

(** Response of [GET {JENKINS_URL}/job/{JENKINS_JOB_NAME}/api/json]:
    status code and [job_info['lastBuild']] ([None] when Jenkins sends
    [null], on which [['number']] raises). *)
Record JobResponse := {
  job_status_code : Z;
  last_build : option nat
}.

(** Response of the build endpoint: status code, [building], [result]
    ([result] is JSON [null] while running). *)
Record BuildResponse := {
  build_status_code : Z;
  building : bool;
  result : option string
}.

(** The two exceptions raised by the task: [Exception("Failed to query
    Jenkins API: {code}")] and [Exception("Jenkins build failed!")]; and the
    [TypeError] of [None['number']].  Both raised exceptions are plain
    [Exception]s told apart by their message; [QueryFailed] is what the
    spec calls [TransportError] and [BuildFailed] its [JobFailed]. *)
Inductive PollError :=
| QueryFailed (code : Z)
| BuildFailed
| NoLastBuild.

Inductive Outcome :=
| Success            (* return True *)
| Raised (e : PollError)
| Pending.           (* the [while True] loop is still polling *)

Inductive Event :=
| HttpGet (url : string)
| Sleep (seconds : nat).

Definition job_url (cfg : Config) : string :=
  JENKINS_URL cfg ++ "/job/" ++ JENKINS_JOB_NAME cfg ++ "/api/json".

Definition build_url (cfg : Config) (n : nat) : string :=
  JENKINS_URL cfg ++ "/job/" ++ JENKINS_JOB_NAME cfg ++ "/" ++ py_str_nat n
    ++ "/api/json".

(** The [while True] loop of lines 90-103, over the successive responses. *)
Fixpoint poll_loop (url : string) (rs : list BuildResponse)
  : Outcome * list Event :=
  match rs with
  | [] => (Pending, [])
  | r :: rs' =>
      if Z.eqb (build_status_code r) 200 then
        if negb (building r) then
          match result r with
          | Some s =>
              if String.eqb s "SUCCESS" then (Success, [HttpGet url])
              else (Raised BuildFailed, [HttpGet url])
          | None => (Raised BuildFailed, [HttpGet url])
          end
        else
          let '(o, tr) := poll_loop url rs' in
          (o, HttpGet url :: Sleep 30 :: tr)
      else (Raised (QueryFailed (build_status_code r)), [HttpGet url])
  end.

Definition poll_jenkins_job (cfg : Config) (jr : JobResponse)
    (rs : list BuildResponse) : Outcome * list Event :=
  if negb (Z.eqb (job_status_code jr) 200) then
    (Raised (QueryFailed (job_status_code jr)), [HttpGet (job_url cfg)])
  else
    match last_build jr with
    | None => (Raised NoLastBuild, [HttpGet (job_url cfg)])
    | Some n =>
        let '(o, tr) := poll_loop (build_url cfg n) rs in
        (o, HttpGet (job_url cfg) :: tr)
    end.

(** Number of HTTP requests in a trace. *)
Fixpoint requests (tr : list Event) : nat :=
  match tr with
  | [] => 0
  | HttpGet _ :: tr' => S (requests tr')
  | _ :: tr' => requests tr'
  end.

(** Classification of a single build-status response. *)
Definition still_building (r : BuildResponse) : bool :=
  Z.eqb (build_status_code r) 200 && building r.

Definition finished_success (r : BuildResponse) : bool :=
  Z.eqb (build_status_code r) 200 && negb (building r)
  && match result r with Some s => String.eqb s "SUCCESS" | None => false end.

Definition finished_not_success (r : BuildResponse) : bool :=
  Z.eqb (build_status_code r) 200 && negb (building r)
  && negb (match result r with Some s => String.eqb s "SUCCESS" | None => false end).

End Jenkins.

(** ** Step 3: [check_ec2_status] (lines 127-164) *)
Module Ec2Status.

(** One element of [response['InstanceStatuses']]. *)
Record InstanceStatusEntry := {
  SystemStatus : string;
  InstanceStatus : string
}.

(** [response['InstanceStatuses']]. *)
Definition DescribeResponse := list InstanceStatusEntry.

Inductive Outcome :=
| Returned (b : bool)
| Pending.

Inductive Event :=
| DescribeInstanceStatus
| Sleep (seconds : nat).

(** Lines 153: both sub-checks of the first entry equal ["ok"]. *)
Definition entry_ok (e : InstanceStatusEntry) : bool :=
  String.eqb (SystemStatus e) "ok" && String.eqb (InstanceStatus e) "ok".

(** The [while not passed_checks] loop: one describe call, the check, and
    [time.sleep(15)] on every iteration (also the last one). *)
Fixpoint check_loop (rs : list DescribeResponse) : Outcome * list Event :=
  match rs with
  | [] => (Pending, [])
  | r :: rs' =>
      let passed :=
        match r with
        | e :: _ => entry_ok e
        | [] => false
        end in
      if passed then (Returned true, [DescribeInstanceStatus; Sleep 15])
      else
        let '(o, tr) := check_loop rs' in
        (o, DescribeInstanceStatus :: Sleep 15 :: tr)
  end.

Definition check_ec2_status (rs : list DescribeResponse) : Outcome * list Event :=
  check_loop rs.

(** A poll "shows both checks ok". *)
Definition poll_ok (r : DescribeResponse) : bool :=
  match r with
  | e :: _ => entry_ok e
  | [] => false
  end.

Fixpoint describes (tr : list Event) : nat :=
  match tr with
  | [] => 0
  | DescribeInstanceStatus :: tr' => S (describes tr')
  | _ :: tr' => describes tr'
  end.

End Ec2Status.

(** ** Step 5: [run_training_via_paramiko] (lines 197-239) *)
Module Ssh.

(** A Python exception: class name and [str(e)]. *)
Record PyExc := { exc_class : string; exc_msg : string }.

(** What the remote side and the key file do: [None] means the call
    returns normally, [Some e] that it raises [e]. *)
Record Host := {
  key_load : option PyExc;        (* RSAKey.from_private_key_file(KEY_PATH) *)
  connect_exc : option PyExc;     (* ssh_client.connect(...) *)
  exec_exc : option PyExc;        (* ssh_client.exec_command(command) *)
  stdout_lines : list string;
  stdout_exc : option PyExc;      (* iterating stdout raises after its lines *)
  stderr_lines : list string;
  stderr_exc : option PyExc;      (* iterating stderr raises after its lines *)
  exit_status : Z                 (* the remote command's exit status *)
}.

Inductive Event :=
| Print (s : string)
| LoadKey (path : string)
| Connect (hostname username : string)
| ExecCommand (command : string)
| Close.

Inductive Result :=
| Ok
| Err (e : PyExc).

(** The command of lines 213-223: a sequence of shell lines. *)
Inductive ShellLine :=
| Export (name value : string)
| Invoke (text : string).

Definition command_lines (cfg : Config) : list ShellLine :=
  [ Export "MLFLOW_TRACKING_URI" (MLFLOW_TRACKING_URI cfg);
    Export "MLFLOW_EXPERIMENT_ID" (MLFLOW_EXPERIMENT_ID cfg);
    Export "AWS_ACCESS_KEY_ID" (AWS_ACCESS_KEY_ID cfg);
    Export "AWS_SECRET_ACCESS_KEY" (AWS_SECRET_ACCESS_KEY cfg);
    Export "ARTIFACT_ROOT" (ARTIFACT_ROOT cfg);
    Export "BUCKET_NAME" (BUCKET_NAME cfg);
    Export "FILE_KEY" (FILE_KEY cfg);
    Export "PATH" "$PATH:/home/ubuntu/.local/bin";
    Invoke "mlflow run https://github.com/VeeraK81/pipeline-workflow --build-image    " ].

(** The f-string's indentation inside the triple-quoted literal. *)
Definition indent : string := "            ".

Definition render_line (l : ShellLine) : string :=
  indent ++
  match l with
  | Export n v => "export " ++ n ++ "=" ++ v
  | Invoke t => t
  end ++ nl.

Definition command (cfg : Config) : string :=
  nl ++ String.concat "" (map render_line (command_lines cfg)) ++ indent.

(** [str.strip()] on the blanks the channel produces. *)
Definition is_blank (c : ascii) : bool :=
  match nat_of_ascii c with
  | 32 | 9 | 10 | 13 => true
  | _ => false
  end.

Fixpoint lstrip (s : string) : string :=
  match s with
  | EmptyString => EmptyString
  | String c s' => if is_blank c then lstrip s' else s
  end.

Definition rev_string (s : string) : string :=
  string_of_list_ascii (rev (list_ascii_of_string s)).

Definition strip (s : string) : string :=
  rev_string (lstrip (rev_string (lstrip s))).

(** The body of the [try] block after the key was loaded: the exception
    it raises, if any, and the events up to that point. *)
Definition try_body (cfg : Config) (public_ip : string) (h : Host)
  : option PyExc * list Event :=
  match connect_exc h with
  | Some e => (Some e, [Connect public_ip "ubuntu"])
  | None =>
      let cmd := command cfg in
      match exec_exc h with
      | Some e => (Some e, [Connect public_ip "ubuntu"; ExecCommand cmd])
      | None =>
          let outs := map (fun l => Print (strip l)) (stdout_lines h) in
          match stdout_exc h with
          | Some e => (Some e, ([Connect public_ip "ubuntu"; ExecCommand cmd] ++ outs)%list)
          | None =>
              let errs := map (fun l => Print (strip l)) (stderr_lines h) in
              (stderr_exc h,
               ([Connect public_ip "ubuntu"; ExecCommand cmd] ++ outs ++ errs)%list)
          end
      end
  end.

(** The whole task: print, load the key (outside the [try]), then
    [try ... except: print; raise ... finally: close]. *)
Definition run_training_via_paramiko (cfg : Config) (public_ip : string) (h : Host)
  : Result * list Event :=
  let tr0 := [Print ("PUBLIC IP: " ++ public_ip); LoadKey (KEY_PATH cfg)] in
  match key_load h with
  | Some e => (Err e, tr0)
  | None =>
      match try_body cfg public_ip h with
      | (Some e, tr) =>
          (Err e, (tr0 ++ tr ++ [Print ("Error occurred during SSH: " ++ exc_msg e); Close])%list)
      | (None, tr) => (Ok, (tr0 ++ tr ++ [Close])%list)
      end
  end.

Definition is_connect (ev : Event) : bool :=
  match ev with Connect _ _ => true | _ => false end.

Definition is_exec (ev : Event) : bool :=
  match ev with ExecCommand _ => true | _ => false end.

Definition count (p : Event -> bool) (tr : list Event) : nat :=
  length (filter p tr).

Definition exported_names (ls : list ShellLine) : list string :=
  flat_map (fun l => match l with Export n _ => [n] | Invoke _ => [] end) ls.

(** The exception that propagates out of the task, if any, read off the
    host description in the order the calls are made. *)
Definition first_raised (h : Host) : option PyExc :=
  match key_load h with
  | Some e => Some e
  | None =>
      match connect_exc h with
      | Some e => Some e
      | None =>
          match exec_exc h with
          | Some e => Some e
          | None =>
              match stdout_exc h with
              | Some e => Some e
              | None => stderr_exc h
              end
          end
      end
  end.

End Ssh.

(** ** The DAG (lines 54-59, 106-123, 243-248, 323-331) under Airflow's
    scheduling: trigger rules, [default_args['retries'] = 1], and the
    Jinja template of the terminate operator. *)
Module Dag.

Local Open Scope list_scope.

(** What one attempt of a task does: return a value (pushed as XCom),
    raise, or never return (an unbounded loop). *)
Inductive Attempt (A : Type) :=
| ARet (a : A)
| ARaise
| AHang.
Arguments ARet {A} a.
Arguments ARaise {A}.
Arguments AHang {A}.

(** Final state of a task instance in the DAG run; [TNotDone] is a task
    still running or never scheduled. *)
Inductive TState (A : Type) :=
| TSuccess (a : A)
| TFailed
| TUpstreamFailed
| TNotDone.
Arguments TSuccess {A} a.
Arguments TFailed {A}.
Arguments TUpstreamFailed {A}.
Arguments TNotDone {A}.

Inductive Status := SSuccess | SFailed | SUpstreamFailed | SNotDone.

Definition status {A} (s : TState A) : Status :=
  match s with
  | TSuccess _ => SSuccess
  | TFailed => SFailed
  | TUpstreamFailed => SUpstreamFailed
  | TNotDone => SNotDone
  end.

Inductive TriggerRule := ALL_SUCCESS | ALL_DONE.

(** Calls to the EC2 API that the claims count. *)
Inductive Call :=
| RunInstances (instance_ids : list string)
| TerminateInstances (instance_id : string).

(** [default_args['retries']]. *)
Definition retries : nat := 1.

(** Attempts [k], [k+1], ... of a task with [n] retries left. *)
Fixpoint run_attempts {A} (n k : nat) (att : nat -> Attempt A * list Call)
  : TState A * list Call :=
  let '(a, cs) := att k in
  match a with
  | ARet x => (TSuccess x, cs)
  | AHang => (TNotDone, cs)
  | ARaise =>
      match n with
      | 0 => (TFailed, cs)
      | S n' => let '(s, cs') := run_attempts n' (S k) att in (s, cs ++ cs')
      end
  end.

Definition is_done (s : Status) : bool :=
  match s with SNotDone => false | _ => true end.

Definition is_failed (s : Status) : bool :=
  match s with SFailed | SUpstreamFailed => true | _ => false end.

Definition is_success (s : Status) : bool :=
  match s with SSuccess => true | _ => false end.

(** The scheduler's decision for a task given its upstream states. *)
Definition schedule {A} (rule : TriggerRule) (ups : list Status)
    (run : unit -> TState A * list Call) : TState A * list Call :=
  match rule with
  | ALL_SUCCESS =>
      if existsb is_failed ups then (TUpstreamFailed, [])
      else if forallb is_success ups then run tt
      else (TNotDone, [])
  | ALL_DONE =>
      if forallb is_done ups then run tt else (TNotDone, [])
  end.

Definition task {A} (att : nat -> Attempt A) : nat -> Attempt A * list Call :=
  fun k => (att k, []).

(** [task_instance.xcom_pull(task_ids='create_ec2_instance')] in this run. *)
Definition xcom_create (s : TState (list string)) : option (list string) :=
  match s with TSuccess ids => Some ids | _ => None end.

(** Rendering ["{{ ...xcom_pull(...)[0] }}"]: subscripting [None] or an
    empty list gives Jinja's strict undefined, whose rendering raises. *)
Definition render_instance_ids (x : option (list string)) : option string :=
  match x with
  | Some (id :: _) => Some id
  | _ => None
  end.

(** One attempt of [terminate_ec2_instance]: render the template, call
    [terminate_instances], then wait for completion ([wait k]). *)
Definition terminate_attempt (x : option (list string)) (wait : nat -> bool)
    (k : nat) : Attempt unit * list Call :=
  match render_instance_ids x with
  | None => (ARaise, [])
  | Some id => (if wait k then ARet tt else ARaise, [TerminateInstances id])
  end.

(** One attempt of [create_ec2_instance], an [EC2CreateInstanceOperator]
    with [wait_for_completion=True]: either [run_instances] raises and
    nothing is created, or it creates the instances [ids] and the operator
    then waits for them to be running ([wait]); it returns [ids] (its
    XCom) only when that wait returns.  A wait that raises leaves the
    created instances behind. *)
Inductive CreateAttempt :=
| RunInstancesRaises
| Launched (ids : list string) (wait : Attempt unit).

Definition create_attempt (c : CreateAttempt) : Attempt (list string) * list Call :=
  match c with
  | RunInstancesRaises => (ARaise, [])
  | Launched ids w =>
      (match w with ARet _ => ARet ids | ARaise => ARaise | AHang => AHang end,
       [RunInstances ids])
  end.

(** The instance ids created by a sequence of calls. *)
Definition launched (cs : list Call) : list string :=
  flat_map (fun c => match c with RunInstances ids => ids | _ => [] end) cs.

(** Behaviour of the tasks' attempts in one DAG run. *)
Record Run := {
  poll_att : nat -> Attempt unit;
  create_att : nat -> CreateAttempt;
  check_att : nat -> Attempt unit;
  ip_att : nat -> Attempt unit;
  ssh_att : nat -> Attempt unit;
  term_wait : nat -> bool;
  logs_att : nat -> Attempt unit
}.

Record RunResult := {
  poll_state : TState unit;
  create_state : TState (list string);
  check_state : TState unit;
  ip_state : TState unit;
  ssh_state : TState unit;
  term_state : TState unit;
  logs_state : TState unit;
  create_calls : list Call;
  term_calls : list Call
}.

(** [jenkins_poll >> create_ec2_instance >> check_ec2_instance >>
    ec2_public_ip >> ssh_training_task >> terminate_instance >>
    write_logs_task], plus the XComArg edges [create_ec2_instance >>
    ec2_public_ip] and [create_ec2_instance >> check_ec2_instance]; only
    the terminate task has [TriggerRule.ALL_DONE].  One definition per
    task instance. *)
Definition poll_of (r : Run) : TState unit * list Call :=
  run_attempts retries 0 (task (poll_att r)).

Definition create_of (r : Run) : TState (list string) * list Call :=
  schedule ALL_SUCCESS [status (fst (poll_of r))]
    (fun _ => run_attempts retries 0 (fun k => create_attempt (create_att r k))).

Definition check_of (r : Run) : TState unit * list Call :=
  schedule ALL_SUCCESS [status (fst (create_of r))]
    (fun _ => run_attempts retries 0 (task (check_att r))).

Definition ip_of (r : Run) : TState unit * list Call :=
  schedule ALL_SUCCESS [status (fst (create_of r)); status (fst (check_of r))]
    (fun _ => run_attempts retries 0 (task (ip_att r))).

Definition ssh_of (r : Run) : TState unit * list Call :=
  schedule ALL_SUCCESS [status (fst (ip_of r))]
    (fun _ => run_attempts retries 0 (task (ssh_att r))).

Definition term_of (r : Run) : TState unit * list Call :=
  schedule ALL_DONE [status (fst (ssh_of r))]
    (fun _ => run_attempts retries 0
                (terminate_attempt (xcom_create (fst (create_of r))) (term_wait r))).

Definition logs_of (r : Run) : TState unit * list Call :=
  schedule ALL_SUCCESS [status (fst (term_of r))]
    (fun _ => run_attempts retries 0 (task (logs_att r))).

Definition dag_run (r : Run) : RunResult :=
  {| poll_state := fst (poll_of r); create_state := fst (create_of r);
     check_state := fst (check_of r); ip_state := fst (ip_of r);
     ssh_state := fst (ssh_of r); term_state := fst (term_of r);
     logs_state := fst (logs_of r); create_calls := snd (create_of r);
     term_calls := snd (term_of r) |}.

Definition never_hangs {A} (att : nat -> Attempt A) : Prop :=
  forall k, att k <> AHang.

End Dag.

(** ** Step 7: [write_logs_s3] (lines 254-318) *)
Module LogShipper.

Local Open Scope list_scope.

(** A call that returns a value or raises with [str(e)]. *)
Inductive PyResult (A : Type) :=
| Returns (a : A)
| Raises (msg : string).
Arguments Returns {A} a.
Arguments Raises {A} msg.

(** What the file system answers for a path: [os.path.getmtime] (POSIX
    seconds) and [open(path, 'r').read()]. *)
Record FileStat := {
  getmtime : PyResult Z;
  read : PyResult string
}.

Inductive LogMsg :=
| Info (s : string)
| Warning (s : string)
| Error (s : string).

Record Upload := {
  up_bucket : string;
  up_key : string;
  up_body : string
}.

Inductive Outcome :=
| Done
| Failed (msg : string).  (* the re-raised exception *)

Definition S3_KEY_PREFIX : string := "logs/airflow_fraud_detection_logs".

(** [datetime.utcfromtimestamp(t).date()] as a day number. *)
Definition utc_date (t : Z) : Z := Z.div t 86400.

(** [os.path.join(root, file)]. *)
Definition os_path_join (root file : string) : string :=
  if String.eqb root "" then file
  else match String.get (String.length root - 1) root with
       | Some "/"%char => (root ++ file)%string
       | _ => (root ++ "/" ++ file)%string
       end.

(** The paths visited by [for root, dirs, files in os.walk(...)] and
    [for file in files], in order. *)
Definition walk_paths (walk : list (string * list string)) : list string :=
  flat_map (fun '(root, files) => map (os_path_join root) files) walk.

Definition header (p : string) : string :=
  ("--- Log file: " ++ p ++ " ---" ++ nl)%string.

Definition warning (p msg : string) : LogMsg :=
  Warning ("Could not read or process log file " ++ p ++ ": " ++ msg)%string.

(** The body of the inner [try] for one path: the strings written to the
    [StringIO] and the messages logged. *)
Definition process_file (fs : string -> FileStat) (today : Z) (p : string)
  : list string * list LogMsg :=
  match getmtime (fs p) with
  | Raises m => ([], [warning p m])
  | Returns t =>
      if Z.eqb (utc_date t) today then
        match read (fs p) with
        | Raises m => ([header p], [warning p m])
        | Returns c => ([header p; c; (nl ++ nl)%string], [])
        end
      else ([], [])
  end.

(** [StringIO.getvalue()] after a sequence of [write]s. *)
Definition getvalue (writes : list string) : string :=
  fold_right String.append EmptyString writes.

Fixpoint collect (fs : string -> FileStat) (today : Z) (ps : list string)
  : list string * list LogMsg :=
  match ps with
  | [] => ([], [])
  | p :: ps' =>
      let '(w, l) := process_file fs today p in
      let '(w', l') := collect fs today ps' in
      (w ++ w', l ++ l')
  end.

(** The task.  [today] is [datetime.utcnow().date()] as a day number,
    [timestamp] the [strftime] of the same instant, [upload] what
    [s3_hook.load_file_obj] does. *)
Definition write_logs_s3 (cfg : Config) (base_log_folder : string)
    (walk : list (string * list string)) (fs : string -> FileStat)
    (today : Z) (timestamp : string) (upload : PyResult unit)
  : Outcome * list Upload * list LogMsg :=
  let consolidated_log_file := ("airflow_fd_logs_" ++ timestamp ++ ".txt")%string in
  let start := [Info ("Collecting today's logs from " ++ base_log_folder ++ "...")%string] in
  let '(writes, logs) := collect fs today (walk_paths walk) in
  let log_content := getvalue writes in
  if Nat.ltb 0 (String.length log_content) then
    let s3_key := (S3_KEY_PREFIX ++ "/" ++ consolidated_log_file)%string in
    let up := {| up_bucket := BUCKET_NAME cfg; up_key := s3_key;
                 up_body := log_content |} in
    let uploading := Info ("Uploading consolidated log file to S3: "
                             ++ BUCKET_NAME cfg ++ "/" ++ s3_key)%string in
    match upload with
    | Returns _ =>
        (Done, [up], start ++ logs ++ [uploading; Info "Today's logs uploaded to S3."])
    | Raises m =>
        (Failed m, [up], start ++ logs ++
           [uploading; Error ("Error during log collection or S3 upload: " ++ m)%string])
    end
  else (Done, [], start ++ logs ++ [Info "No logs found for today."]).

(** A path whose modification date is today's UTC date. *)
Definition today_dated (fs : string -> FileStat) (today : Z) (p : string) : bool :=
  match getmtime (fs p) with
  | Returns t => Z.eqb (utc_date t) today
  | Raises _ => false
  end.

Definition readable (fs : string -> FileStat) (p : string) : bool :=
  match read (fs p) with Returns _ => true | Raises _ => false end.

End LogShipper.

(** ** The reporting DAG (src/dags/fd-reporting-ml-training.py) *)
Module Reporting.

Import LogShipper.
Local Open Scope list_scope.

(** Its module-level Variables. *)
Record ReportConfig := {
  R_BUCKET_NAME : string;
  RESULT_FILE_KEY : string;
  LOCAL_FILE_PATH : string;
  EVIDENTLY_API_TOKEN : string;
  EVIDENTLY_BASE_URL : string;
  EVIDENTLY_PROJECT_ID : string
}.

(** What [pd.read_csv] gives: the rendering of [data.head()] and of
    [data.to_json(orient="records")]. *)
Record DataFrame := {
  df_head : string;
  df_records_json : string
}.

Record HttpResponse := {
  status_code : Z;
  text : string
}.

Inductive Event :=
| DownloadFile (key bucket_name local_path : string)
| ReadCsv (path : string)
| Post (url : string) (json : list (string * string))
| Print (s : string).

(** [download_data_from_s3] (lines 75-92); [dl] is what
    [s3_hook.download_file] does. *)
Definition download_data_from_s3 (cfg : ReportConfig) (dl : PyResult string)
  : PyResult string * list Event :=
  let call := DownloadFile (RESULT_FILE_KEY cfg) (R_BUCKET_NAME cfg) (LOCAL_FILE_PATH cfg) in
  match dl with
  | Returns filename =>
      (Returns filename,
       [call; Print ("File downloaded from S3 " ++ filename ++ " and saved to "
                     ++ LOCAL_FILE_PATH cfg)%string])
  | Raises m =>
      (Raises m, [call; Print ("Error occurred during S3 file download: " ++ m)%string])
  end.

(** [str] of an integer status code. *)
Definition py_str_Z (z : Z) : string :=
  if Z.ltb z 0 then ("-" ++ py_str_nat (Z.to_nat (- z)))%string
  else py_str_nat (Z.to_nat z).

Definition upload_data_url (cfg : ReportConfig) : string :=
  (EVIDENTLY_BASE_URL cfg ++ "/projects/" ++ EVIDENTLY_PROJECT_ID cfg ++ "/datasets")%string.

(** [generate_and_upload_report] (lines 95-122); [csv] is what
    [pd.read_csv(LOCAL_FILE_PATH)] does, [post] what [requests.post] does.
    The [filename] argument is not used by the body. *)
Definition generate_and_upload_report (cfg : ReportConfig) (filename : string)
    (csv : PyResult DataFrame) (post : PyResult HttpResponse)
  : PyResult unit * list Event :=
  let read := ReadCsv (LOCAL_FILE_PATH cfg) in
  let fail m := Print ("Error occurred while sending data to Evidently Cloud: " ++ m)%string in
  match csv with
  | Raises m => (Raises m, [read; fail m])
  | Returns data =>
      let req := Post (upload_data_url cfg)
                   [("data", df_records_json data); ("dataset_name", "cv_results_data")] in
      match post with
      | Raises m => (Raises m, [read; Print (df_head data); req; fail m])
      | Returns response =>
          if Z.eqb (status_code response) 200 then
            (Returns tt, [read; Print (df_head data); req;
                          Print "Data successfully sent to Evidently AI Cloud!"])
          else
            (Returns tt, [read; Print (df_head data); req;
                          Print ("Failed to send data to Evidently. Status code: "
                                 ++ py_str_Z (status_code response)
                                 ++ ", Response: " ++ text response)%string])
      end
  end.

Definition is_post (ev : Event) : bool :=
  match ev with Post _ _ => true | _ => false end.

End Reporting.

(** * Properties *)

(** ** Sample configuration and evaluations *)
Definition sample_cfg : Config := {|
  JENKINS_URL := "http://jenkins:8080"; JENKINS_USER := "u"; JENKINS_TOKEN := "t";
  JENKINS_JOB_NAME := "fd-tests"; KEY_PATH := "/opt/airflow/key.pem";
  MLFLOW_TRACKING_URI := "http://mlflow:5000"; MLFLOW_EXPERIMENT_ID := "1";
  AWS_ACCESS_KEY_ID := "AK"; AWS_SECRET_ACCESS_KEY := "SK";
  BUCKET_NAME := "fd-bucket"; FILE_KEY := "data.csv"; ARTIFACT_ROOT := "s3://fd-bucket/mlflow"
|}.

Module JenkinsFacts.
Import Jenkins.
Local Open Scope list_scope.

Definition ok_job : JobResponse := {| job_status_code := 200; last_build := Some 42 |}.
Definition running : BuildResponse :=
  {| build_status_code := 200; building := true; result := None |}.
Definition passed : BuildResponse :=
  {| build_status_code := 200; building := false; result := Some "SUCCESS" |}.
Definition broke : BuildResponse :=
  {| build_status_code := 200; building := false; result := Some "FAILURE" |}.
Definition gone : BuildResponse :=
  {| build_status_code := 404; building := false; result := None |}.

Example build_url_sample :
  build_url sample_cfg 42 = "http://jenkins:8080/job/fd-tests/42/api/json".
Proof. reflexivity. Qed.

Example poll_sample :
  poll_jenkins_job sample_cfg ok_job [running; running; passed; broke]
  = (Success, [HttpGet (job_url sample_cfg);
               HttpGet (build_url sample_cfg 42); Sleep 30;
               HttpGet (build_url sample_cfg 42); Sleep 30;
               HttpGet (build_url sample_cfg 42)]).
Proof. reflexivity. Qed.

Lemma requests_app t1 t2 : requests (t1 ++ t2) = requests t1 + requests t2.
Proof. induction t1 as [|[] t1 IH]; simpl; auto. Qed.

Definition building_trace (url : string) (rs : list BuildResponse) : list Event :=
  flat_map (fun _ => [HttpGet url; Sleep 30]) rs.

Lemma requests_building_trace url rs : requests (building_trace url rs) = length rs.
Proof. induction rs; simpl; auto. Qed.

(** Still-building responses are consumed one request and one sleep each. *)
Lemma poll_loop_building url rs l :
  forallb still_building rs = true ->
  poll_loop url (rs ++ l)
  = (fst (poll_loop url l), building_trace url rs ++ snd (poll_loop url l)).
Proof.
  induction rs as [|r rs IH]; intros H.
  - simpl. destruct (poll_loop url l); reflexivity.
  - simpl in H. apply andb_true_iff in H as [Hr Hrs].
    unfold still_building in Hr. apply andb_true_iff in Hr as [Hc Hb].
    simpl. rewrite Hc, Hb. simpl. rewrite (IH Hrs). reflexivity.
Qed.

(** The loop returns [Success] exactly on a run of still-building
    responses followed by a finished [SUCCESS] response. *)
Lemma poll_loop_success_inv url rs :
  fst (poll_loop url rs) = Success ->
  exists pre final rest, rs = pre ++ final :: rest /\
    forallb still_building pre = true /\ finished_success final = true.
Proof.
  induction rs as [|r rs IH]; simpl; [discriminate|].
  destruct (Z.eqb (build_status_code r) 200) eqn:Hc; [|discriminate].
  destruct (building r) eqn:Hb; simpl.
  - destruct (poll_loop url rs) as [o tr] eqn:E. simpl. intros Ho.
    destruct (IH Ho) as (pre & final & rest & -> & Hpre & Hf).
    exists (r :: pre), final, rest. split; [reflexivity|].
    split; [|exact Hf]. simpl. rewrite Hpre. unfold still_building.
    rewrite Hc, Hb. reflexivity.
  - destruct (result r) as [s|] eqn:Hres; [|discriminate].
    destruct (String.eqb s "SUCCESS") eqn:Hs; [|discriminate]. intros _.
    exists [], r, rs. unfold finished_success. rewrite Hc, Hb, Hres, Hs. auto.
Qed.

(** Claim C5: when the job query succeeds, [poll_jenkins_job] returns
    success exactly on response sequences made of still-building responses
    followed by a finished response whose result is ["SUCCESS"]; it then has
    made one build-status request per still-building response plus one for
    the final response, so at least one request beyond the first
    still-building response. *)
Theorem poll_jenkins_job_success cfg jr n responses
  (Hjob : job_status_code jr = 200%Z) (Hlb : last_build jr = Some n) :
  (fst (poll_jenkins_job cfg jr responses) = Success <->
   exists pre final rest, responses = pre ++ final :: rest /\
     forallb still_building pre = true /\ finished_success final = true)
  /\ (forall pre final rest, responses = pre ++ final :: rest ->
        forallb still_building pre = true -> finished_success final = true ->
        requests (snd (poll_jenkins_job cfg jr responses)) = 2 + length pre
        /\ (pre <> [] -> requests (snd (poll_jenkins_job cfg jr responses)) - 1 >= 2)).
Proof.
  unfold poll_jenkins_job. rewrite Hjob, Hlb. simpl.
  assert (Hfin : forall pre final rest,
            forallb still_building pre = true -> finished_success final = true ->
            poll_loop (build_url cfg n) (pre ++ final :: rest)
            = (Success, building_trace (build_url cfg n) pre ++ [HttpGet (build_url cfg n)])).
  { intros pre final rest Hpre Hf. rewrite (poll_loop_building _ _ _ Hpre).
    unfold finished_success in Hf.
    destruct (Z.eqb (build_status_code final) 200) eqn:Hc; [|discriminate].
    destruct (building final) eqn:Hb; [discriminate|].
    destruct (result final) as [s|] eqn:Hres; [|discriminate].
    simpl in Hf. simpl. rewrite Hc, Hb, Hres, Hf. reflexivity. }
  split.
  - destruct (poll_loop (build_url cfg n) responses) as [o tr] eqn:E. simpl. split.
    + intros Ho. subst o. apply poll_loop_success_inv with (url := build_url cfg n).
      rewrite E. reflexivity.
    + intros (pre & final & rest & -> & Hpre & Hf). rewrite Hfin in E by assumption.
      congruence.
  - intros pre final rest -> Hpre Hf. rewrite Hfin by assumption. simpl.
    rewrite requests_app, requests_building_trace. simpl. split; [lia|].
    intros Hne. destruct pre; [congruence|]. simpl. lia.
Qed.

Lemma poll_jenkins_job_success_witness :
  (job_status_code ok_job = 200%Z /\ last_build ok_job = Some 42) /\
  fst (poll_jenkins_job sample_cfg ok_job [running; running; passed]) = Success.
Proof.
  split; [split; reflexivity|].
  apply (proj1 (poll_jenkins_job_success sample_cfg ok_job 42 [running; running; passed]
                 eq_refl eq_refl)).
  exists [running; running], passed, []. split; [reflexivity|]. split; reflexivity.
Defined.

(** Claim C7: once the job query has succeeded, after any number of
    still-building responses (each retried after a sleep, without bound) a
    non-200 response makes the task raise [QueryFailed] and a finished
    response whose result is not ["SUCCESS"] makes it raise [BuildFailed],
    in both cases with no request after that response.  A non-200 answer
    to the job query itself raises at once. *)
Theorem poll_jenkins_job_failures cfg jr n pre r rest
  (Hjob : job_status_code jr = 200%Z) (Hlb : last_build jr = Some n)
  (Hpre : forallb still_building pre = true) :
  (build_status_code r <> 200%Z ->
     poll_jenkins_job cfg jr (pre ++ r :: rest)
     = (Raised (QueryFailed (build_status_code r)),
        HttpGet (job_url cfg) :: building_trace (build_url cfg n) pre
          ++ [HttpGet (build_url cfg n)]))
  /\ (finished_not_success r = true ->
     poll_jenkins_job cfg jr (pre ++ r :: rest)
     = (Raised BuildFailed,
        HttpGet (job_url cfg) :: building_trace (build_url cfg n) pre
          ++ [HttpGet (build_url cfg n)]))
  /\ poll_jenkins_job cfg jr pre
     = (Pending, HttpGet (job_url cfg) :: building_trace (build_url cfg n) pre)
  /\ (forall code, poll_jenkins_job cfg {| job_status_code := code; last_build := last_build jr |}
                      (pre ++ r :: rest)
       = if Z.eqb code 200%Z then poll_jenkins_job cfg jr (pre ++ r :: rest)
         else (Raised (QueryFailed code), [HttpGet (job_url cfg)])).
Proof.
  unfold poll_jenkins_job. rewrite Hjob, Hlb. simpl.
  rewrite (poll_loop_building _ _ _ Hpre). split; [|split; [|split]].
  - intros Hc. apply Z.eqb_neq in Hc. simpl. rewrite Hc. reflexivity.
  - intros Hf. unfold finished_not_success in Hf.
    destruct (Z.eqb (build_status_code r) 200) eqn:Hc; [|discriminate].
    destruct (building r) eqn:Hb; [discriminate|].
    simpl. rewrite Hc, Hb.
    destruct (result r) as [s|]; [|reflexivity].
    simpl in Hf. destruct (String.eqb s "SUCCESS"); [discriminate|reflexivity].
  - pose proof (poll_loop_building (build_url cfg n) pre [] Hpre) as E.
    rewrite app_nil_r in E. rewrite E. simpl. rewrite app_nil_r. reflexivity.
  - intros code. simpl.
    destruct (Z.eqb code 200) eqn:Hc; simpl; reflexivity.
Qed.

Lemma poll_jenkins_job_failures_witness :
  forallb still_building [running; running] = true /\
  poll_jenkins_job sample_cfg ok_job ([running; running] ++ gone :: [passed])
  = (Raised (QueryFailed 404),
     HttpGet (job_url sample_cfg) :: building_trace (build_url sample_cfg 42) [running; running]
       ++ [HttpGet (build_url sample_cfg 42)]).
Proof.
  split; [reflexivity|].
  apply (proj1 (poll_jenkins_job_failures sample_cfg ok_job 42 [running; running] gone [passed]
                 eq_refl eq_refl eq_refl)).
  simpl. discriminate.
Defined.

End JenkinsFacts.

Module Ec2StatusFacts.
Import Ec2Status.
Local Open Scope list_scope.

Definition initializing : InstanceStatusEntry :=
  {| SystemStatus := "initializing"; InstanceStatus := "initializing" |}.
Definition healthy : InstanceStatusEntry :=
  {| SystemStatus := "ok"; InstanceStatus := "ok" |}.

Example check_sample :
  check_ec2_status [[]; [initializing]; [healthy]; []]
  = (Returned true, [DescribeInstanceStatus; Sleep 15; DescribeInstanceStatus; Sleep 15;
                     DescribeInstanceStatus; Sleep 15]).
Proof. reflexivity. Qed.

Definition waiting_trace (rs : list DescribeResponse) : list Event :=
  flat_map (fun _ => [DescribeInstanceStatus; Sleep 15]) rs.

Lemma describes_waiting_trace rs : describes (waiting_trace rs) = length rs.
Proof. induction rs; simpl; auto. Qed.

Lemma describes_app t1 t2 : describes (t1 ++ t2) = describes t1 + describes t2.
Proof. induction t1 as [|[] t1 IH]; simpl; auto. Qed.

Lemma check_loop_waiting pre l :
  forallb (fun r => negb (poll_ok r)) pre = true ->
  check_loop (pre ++ l) = (fst (check_loop l), waiting_trace pre ++ snd (check_loop l)).
Proof.
  induction pre as [|r pre IH]; intros H.
  - simpl. destruct (check_loop l); reflexivity.
  - simpl in H. apply andb_true_iff in H as [Hr Hpre].
    apply negb_true_iff in Hr. unfold poll_ok in Hr.
    simpl. rewrite Hr. rewrite (IH Hpre). reflexivity.
Qed.

Lemma check_loop_first_ok pre r post :
  forallb (fun r => negb (poll_ok r)) pre = true -> poll_ok r = true ->
  check_loop (pre ++ r :: post)
  = (Returned true, waiting_trace pre ++ [DescribeInstanceStatus; Sleep 15]).
Proof.
  intros Hpre Hr. rewrite (check_loop_waiting _ _ Hpre).
  unfold poll_ok in Hr. simpl. rewrite Hr. reflexivity.
Qed.

(** Claim C6: on any sequence of describe responses in which some poll
    shows both checks ["ok"], [check_ec2_status] returns [True]; it does so
    right after the first such poll, one describe call per response up to
    it; on any prefix of non-ok responses it has not returned; a response
    with no status entry is one more wait-and-retry, not an error. *)
Theorem check_ec2_status_returns rs
  (Hsome : exists r, In r rs /\ poll_ok r = true) :
  fst (check_ec2_status rs) = Returned true
  /\ (forall pre r post, rs = pre ++ r :: post ->
        forallb (fun r => negb (poll_ok r)) pre = true -> poll_ok r = true ->
        describes (snd (check_ec2_status rs)) = S (length pre)
        /\ forall pre', forallb (fun r => negb (poll_ok r)) pre' = true ->
             fst (check_ec2_status pre') = Pending)
  /\ check_ec2_status ([] :: rs)
     = (fst (check_ec2_status rs),
        DescribeInstanceStatus :: Sleep 15 :: snd (check_ec2_status rs)).
Proof.
  unfold check_ec2_status. split; [|split].
  - destruct Hsome as (r & Hin & Hr). clear - Hin Hr.
    induction rs as [|r' rs IH]; [contradiction|].
    simpl. destruct (match r' with e :: _ => entry_ok e | [] => false end) eqn:E;
      [reflexivity|].
    destruct Hin as [->|Hin].
    + unfold poll_ok in Hr. congruence.
    + specialize (IH Hin). destruct (check_loop rs); exact IH.
  - intros pre r post -> Hpre Hr. split.
    + rewrite check_loop_first_ok by assumption.
      simpl. rewrite describes_app, describes_waiting_trace. simpl. lia.
    + intros pre' Hpre'. pose proof (check_loop_waiting pre' [] Hpre') as E.
      rewrite app_nil_r in E. rewrite E. reflexivity.
  - simpl. destruct (check_loop rs); reflexivity.
Qed.

Lemma check_ec2_status_returns_witness :
  (exists r, In r [[]; [initializing]; [healthy]] /\ poll_ok r = true) /\
  fst (check_ec2_status [[]; [initializing]; [healthy]]) = Returned true.
Proof.
  assert (H : exists r, In r [[]; [initializing]; [healthy]] /\ poll_ok r = true).
  { exists [healthy]. split; [simpl; auto | reflexivity]. }
  split; [exact H|].
  exact (proj1 (check_ec2_status_returns [[]; [initializing]; [healthy]] H)).
Defined.

End Ec2StatusFacts.

Module SshFacts.
Import Ssh.
Local Open Scope list_scope.

Definition with_exit_status (h : Host) (z : Z) : Host :=
  {| key_load := key_load h; connect_exc := connect_exc h; exec_exc := exec_exc h;
     stdout_lines := stdout_lines h; stdout_exc := stdout_exc h;
     stderr_lines := stderr_lines h; stderr_exc := stderr_exc h; exit_status := z |}.

(** A host on which the training command runs and exits with status 1. *)
Definition failing_run_host : Host :=
  {| key_load := None; connect_exc := None; exec_exc := None;
     stdout_lines := ["2025/01/01 INFO mlflow.projects: === Building docker image ==="];
     stdout_exc := None;
     stderr_lines := ["mlflow.exceptions.ExecutionException: Run failed"];
     stderr_exc := None; exit_status := 1 |}.

Definition auth_exc : PyExc :=
  {| exc_class := "AuthenticationException"; exc_msg := "Authentication failed." |}.

Example command_sample :
  command sample_cfg =
  (nl ++ indent ++ "export MLFLOW_TRACKING_URI=http://mlflow:5000" ++ nl
      ++ indent ++ "export MLFLOW_EXPERIMENT_ID=1" ++ nl
      ++ indent ++ "export AWS_ACCESS_KEY_ID=AK" ++ nl
      ++ indent ++ "export AWS_SECRET_ACCESS_KEY=SK" ++ nl
      ++ indent ++ "export ARTIFACT_ROOT=s3://fd-bucket/mlflow" ++ nl
      ++ indent ++ "export BUCKET_NAME=fd-bucket" ++ nl
      ++ indent ++ "export FILE_KEY=data.csv" ++ nl
      ++ indent ++ "export PATH=$PATH:/home/ubuntu/.local/bin" ++ nl
      ++ indent ++ "mlflow run https://github.com/VeeraK81/pipeline-workflow --build-image    "
      ++ nl ++ indent)%string.
Proof. reflexivity. Qed.

Example failing_run_sample :
  run_training_via_paramiko sample_cfg "13.38.0.1" failing_run_host
  = (Ok, [Print "PUBLIC IP: 13.38.0.1"; LoadKey "/opt/airflow/key.pem";
          Connect "13.38.0.1" "ubuntu"; ExecCommand (command sample_cfg);
          Print "2025/01/01 INFO mlflow.projects: === Building docker image ===";
          Print "mlflow.exceptions.ExecutionException: Run failed"; Close]).
Proof. reflexivity. Qed.

Lemma count_app p t1 t2 : count p (t1 ++ t2) = count p t1 + count p t2.
Proof. unfold count. rewrite filter_app, length_app. reflexivity. Qed.

Lemma filter_prints p ls :
  (forall s, p (Print s) = false) ->
  filter p (map (fun l => Print (strip l)) ls) = [].
Proof.
  intros Hs. induction ls as [|l ls IH]; [reflexivity|].
  simpl. rewrite Hs. exact IH.
Qed.

(** Result and trace shape of the task, case by case. *)
Ltac ssh_cases h :=
  unfold run_training_via_paramiko, try_body, first_raised;
  destruct (key_load h); [|destruct (connect_exc h); [|destruct (exec_exc h);
    [|destruct (stdout_exc h); [|destruct (stderr_exc h)]]]].

(** Claim C3 (as the code does it): the task makes at most one connection
    and runs at most one command (no retry of its own); whatever exception
    loading the key, connecting, running the command or reading its
    standard output or standard error raises is re-raised unchanged; the client is closed whenever the key
    was loaded; and the remote command's exit status never changes the
    result, so a command that runs and fails ends in success. *)
Theorem run_training_errors cfg ip h :
  count is_connect (snd (run_training_via_paramiko cfg ip h)) <= 1
  /\ count is_exec (snd (run_training_via_paramiko cfg ip h)) <= 1
  /\ fst (run_training_via_paramiko cfg ip h)
     = match first_raised h with Some e => Err e | None => Ok end
  /\ (key_load h = None -> exists tr, snd (run_training_via_paramiko cfg ip h) = tr ++ [Close])
  /\ (forall z, run_training_via_paramiko cfg ip (with_exit_status h z)
                = run_training_via_paramiko cfg ip h).
Proof.
  split; [|split; [|split; [|split]]].
  - ssh_cases h; unfold count; simpl; rewrite ?filter_app, ?filter_prints by reflexivity;
      simpl; lia.
  - ssh_cases h; unfold count; simpl; rewrite ?filter_app, ?filter_prints by reflexivity;
      simpl; lia.
  - ssh_cases h; reflexivity.
  - intros Hk. unfold run_training_via_paramiko. rewrite Hk.
    destruct (try_body cfg ip h) as [[e|] tr].
    + exists (Print ("PUBLIC IP: " ++ ip) :: LoadKey (KEY_PATH cfg) :: tr
              ++ [Print ("Error occurred during SSH: " ++ exc_msg e)])%string.
      simpl. rewrite <- !app_assoc. reflexivity.
    + exists (Print ("PUBLIC IP: " ++ ip) :: LoadKey (KEY_PATH cfg) :: tr)%string.
      reflexivity.
  - intros z. reflexivity.
Qed.

(** Claim C3 as stated fails: the command runs, exits with status 1, and
    the task reports success. *)
Lemma run_training_exit_status_ignored :
  exit_status failing_run_host = 1%Z
  /\ fst (run_training_via_paramiko sample_cfg "13.38.0.1" failing_run_host) = Ok.
Proof. split; reflexivity. Qed.

(** Claim C9 (as the code does it): the task runs exactly one command
    when the key loads and the connection is up, and none otherwise; that
    command is the rendering of [command_lines]: eight [export] lines (the
    seven named variables and [PATH]) followed by the fixed [mlflow run]
    entry point. *)
Theorem run_training_command cfg ip h :
  filter is_exec (snd (run_training_via_paramiko cfg ip h))
  = match key_load h, connect_exc h with
    | None, None => [ExecCommand (command cfg)]
    | _, _ => []
    end
  /\ exported_names (command_lines cfg)
     = ["MLFLOW_TRACKING_URI"; "MLFLOW_EXPERIMENT_ID"; "AWS_ACCESS_KEY_ID";
        "AWS_SECRET_ACCESS_KEY"; "ARTIFACT_ROOT"; "BUCKET_NAME"; "FILE_KEY"; "PATH"]
  /\ last (command_lines cfg) (Invoke "")
     = Invoke "mlflow run https://github.com/VeeraK81/pipeline-workflow --build-image    "
  /\ command cfg = (nl ++ String.concat "" (map render_line (command_lines cfg)) ++ indent)%string.
Proof.
  split; [|split; [reflexivity|split; reflexivity]].
  unfold run_training_via_paramiko, try_body.
  destruct (key_load h); [reflexivity|].
  destruct (connect_exc h); [reflexivity|].
  destruct (exec_exc h); [reflexivity|].
  destruct (stdout_exc h); [|destruct (stderr_exc h)]; simpl;
    rewrite ?filter_app, ?filter_prints by reflexivity; reflexivity.
Qed.

(** Claim C9 as stated fails: the command exports eight variables, not five. *)
Lemma command_exports_not_five :
  length (exported_names (command_lines sample_cfg)) = 8
  /\ length (exported_names (command_lines sample_cfg)) <> 5.
Proof. split; [reflexivity | discriminate]. Qed.

End SshFacts.

Module DagFacts.
Import Dag.
Local Open Scope list_scope.

Definition instance_id : string := "i-0abc123".

(** Every task succeeds on its first attempt. *)
Definition happy_run : Run := {|
  poll_att := fun _ => ARet tt; create_att := fun _ => Launched [instance_id] (ARet tt);
  check_att := fun _ => ARet tt; ip_att := fun _ => ARet tt;
  ssh_att := fun _ => ARet tt; term_wait := fun _ => true;
  logs_att := fun _ => ARet tt |}.

(** The remote training raises on both attempts. *)
Definition ssh_fail_run : Run := {|
  poll_att := fun _ => ARet tt; create_att := fun _ => Launched [instance_id] (ARet tt);
  check_att := fun _ => ARet tt; ip_att := fun _ => ARet tt;
  ssh_att := fun _ => ARaise; term_wait := fun _ => true;
  logs_att := fun _ => ARet tt |}.

(** The instance never passes its status checks: [check_ec2_status]
    loops forever. *)
Definition hang_run : Run := {|
  poll_att := fun _ => ARet tt; create_att := fun _ => Launched [instance_id] (ARet tt);
  check_att := fun _ => AHang; ip_att := fun _ => ARet tt;
  ssh_att := fun _ => ARet tt; term_wait := fun _ => true;
  logs_att := fun _ => ARet tt |}.

(** The first creation attempt launches an instance whose wait for the
    running state then raises; the retry launches a second instance and
    returns it. *)
Definition leak_run : Run := {|
  poll_att := fun _ => ARet tt;
  create_att := fun k => match k with
                         | 0 => Launched ["i-0leaked"] ARaise
                         | _ => Launched [instance_id] (ARet tt)
                         end;
  check_att := fun _ => ARet tt; ip_att := fun _ => ARet tt;
  ssh_att := fun _ => ARet tt; term_wait := fun _ => true;
  logs_att := fun _ => ARet tt |}.

(** Instance creation raises on both attempts. *)
Definition create_fail_run : Run := {|
  poll_att := fun _ => ARet tt; create_att := fun _ => RunInstancesRaises;
  check_att := fun _ => ARet tt; ip_att := fun _ => ARet tt;
  ssh_att := fun _ => ARet tt; term_wait := fun _ => true;
  logs_att := fun _ => ARet tt |}.

Example happy_sample :
  term_calls (dag_run happy_run) = [TerminateInstances instance_id]
  /\ logs_state (dag_run happy_run) = TSuccess tt.
Proof. split; reflexivity. Qed.

Example ssh_fail_sample :
  ssh_state (dag_run ssh_fail_run) = TFailed
  /\ term_calls (dag_run ssh_fail_run) = [TerminateInstances instance_id]
  /\ logs_state (dag_run ssh_fail_run) = TSuccess tt.
Proof. split; [|split]; reflexivity. Qed.

Example create_fail_sample :
  create_state (dag_run create_fail_run) = TFailed
  /\ ssh_state (dag_run create_fail_run) = TUpstreamFailed
  /\ term_state (dag_run create_fail_run) = TFailed
  /\ term_calls (dag_run create_fail_run) = [].
Proof. split; [|split; [|split]]; reflexivity. Qed.

Lemma run_attempts_done {A} n k (att : nat -> Attempt A) :
  never_hangs att -> is_done (status (fst (run_attempts n k (task att)))) = true.
Proof.
  intros H. revert k. induction n as [|n IH]; intros k; simpl;
    unfold task; specialize (H k); destruct (att k); try congruence; simpl; auto.
  destruct (run_attempts n (S k) (fun k0 => (att k0, []))) as [s cs] eqn:E.
  specialize (IH (S k)). unfold task in IH. rewrite E in IH. exact IH.
Qed.

Lemma schedule_all_success_done {A} ups (run : unit -> TState A * list Call) :
  forallb is_done ups = true -> is_done (status (fst (run tt))) = true ->
  is_done (status (fst (schedule ALL_SUCCESS ups run))) = true.
Proof.
  intros Hups Hrun. simpl.
  destruct (existsb is_failed ups) eqn:Hf; [reflexivity|].
  replace (forallb is_success ups) with true; [exact Hrun|].
  symmetry. induction ups as [|u ups IH]; [reflexivity|].
  simpl in *. apply andb_true_iff in Hups as [Hu Hups].
  apply orb_false_iff in Hf as [Hfu Hf].
  destruct u; simpl in *; try discriminate. auto.
Qed.

(** The terminate task's calls, once scheduled. *)
Lemma terminate_task_calls x wait :
  snd (run_attempts retries 0 (terminate_attempt x wait))
  = match render_instance_ids x with
    | None => []
    | Some id => if wait 0 then [TerminateInstances id]
                 else [TerminateInstances id; TerminateInstances id]
    end.
Proof.
  unfold retries, run_attempts, terminate_attempt.
  destruct (render_instance_ids x) as [id|]; [|reflexivity].
  destruct (wait 0); [reflexivity|].
  destruct (wait 1); reflexivity.
Qed.

(** A successful creation task pushed the ids of an instance it launched. *)
Lemma create_success_launched n k (c : nat -> CreateAttempt) ids :
  fst (run_attempts n k (fun k => create_attempt (c k))) = TSuccess ids ->
  In (RunInstances ids) (snd (run_attempts n k (fun k => create_attempt (c k)))).
Proof.
  revert k. induction n as [|n IH]; intros k Hs; simpl in Hs |- *;
    destruct (c k) as [|ids' [a| |]]; cbn in Hs |- *; try discriminate.
  all: try (injection Hs as ->; left; reflexivity).
  all: specialize (IH (S k));
    destruct (run_attempts n (S k) (fun k0 => create_attempt (c k0))) as [st cs];
    cbn in Hs, IH |- *; auto.
Qed.

(** Claim C1 (as the code does it): termination covers exactly the first
    id pushed by a successful creation task.  When creation succeeded and
    the health check, address lookup and training tasks each finish every
    attempt (success or failure, after their retry), the terminate task
    runs and calls [terminate_instances] on that launched instance: once if
    that call's wait completes, twice (its one retry) otherwise.  When one
    of those three tasks never finishes, the terminate task is never
    scheduled and no termination call is made.  An instance launched by a
    creation attempt that then raised is never terminated unless it is the
    first id of the successful attempt. *)
Theorem terminate_after_create r :
  (forall ids, create_state (dag_run r) = TSuccess ids -> ids <> [] ->
     never_hangs (check_att r) -> never_hangs (ip_att r) -> never_hangs (ssh_att r) ->
     In (hd "" ids) (launched (create_calls (dag_run r)))
     /\ term_calls (dag_run r)
        = if term_wait r 0 then [TerminateInstances (hd "" ids)]
          else [TerminateInstances (hd "" ids); TerminateInstances (hd "" ids)])
  /\ (check_state (dag_run r) = TNotDone \/ ip_state (dag_run r) = TNotDone
      \/ ssh_state (dag_run r) = TNotDone ->
      term_state (dag_run r) = TNotDone /\ term_calls (dag_run r) = [])
  /\ (forall id, In id (launched (create_calls (dag_run r))) ->
      (forall rest, create_state (dag_run r) <> TSuccess (id :: rest)) ->
      ~ In (TerminateInstances id) (term_calls (dag_run r))).
Proof.
  simpl. split; [|split].
  - intros ids Hcreate Hids Hcheck Hip Hssh. split.
    + destruct ids as [|id ids']; [congruence|]. simpl.
      assert (Hl : In (RunInstances (id :: ids')) (snd (create_of r))).
      { unfold create_of, schedule in Hcreate |- *.
        destruct (existsb is_failed _); [discriminate|].
        destruct (forallb is_success _); [|discriminate].
        apply create_success_launched. exact Hcreate. }
      unfold launched. apply in_flat_map. exists (RunInstances (id :: ids')).
      split; [exact Hl|]. simpl. auto.
    + assert (Dc : is_done (status (fst (check_of r))) = true).
      { unfold check_of. rewrite Hcreate. apply run_attempts_done; exact Hcheck. }
      assert (Di : is_done (status (fst (ip_of r))) = true).
      { unfold ip_of. apply schedule_all_success_done.
        - rewrite Hcreate. simpl. rewrite Dc. reflexivity.
        - apply run_attempts_done; exact Hip. }
      assert (Ds : is_done (status (fst (ssh_of r))) = true).
      { unfold ssh_of. apply schedule_all_success_done.
        - simpl. rewrite Di. reflexivity.
        - apply run_attempts_done; exact Hssh. }
      unfold term_of, schedule, forallb. rewrite Ds. cbn [andb].
      rewrite terminate_task_calls, Hcreate.
      destruct ids as [|id ids']; [congruence|]. reflexivity.
  - assert (Hs : fst (ssh_of r) = TNotDone -> fst (term_of r) = TNotDone /\ snd (term_of r) = []).
    { intros H. unfold term_of, schedule. rewrite H. split; reflexivity. }
    assert (Hi : fst (ip_of r) = TNotDone -> fst (ssh_of r) = TNotDone).
    { intros H. unfold ssh_of, schedule. rewrite H. reflexivity. }
    assert (Hc : fst (check_of r) = TNotDone -> fst (ip_of r) = TNotDone).
    { intros H. unfold ip_of, schedule. rewrite H.
      unfold check_of, schedule in H.
      destruct (fst (create_of r)); cbn in H |- *; congruence. }
    intros [H|[H|H]]; auto.
  - intros id _ Hnot Hin.
    unfold term_of, schedule in Hin.
    destruct (forallb is_done _); [|contradiction].
    rewrite terminate_task_calls in Hin. unfold render_instance_ids, xcom_create in Hin.
    destruct (fst (create_of r)) as [ids| | |]; try contradiction.
    destruct ids as [|id' rest]; [contradiction|].
    assert (Hid : id' = id).
    { destruct (term_wait r 0); simpl in Hin; intuition congruence. }
    subst id'. exact (Hnot rest eq_refl).
Qed.

Lemma terminate_after_create_witness :
  (create_state (dag_run leak_run) = TSuccess [instance_id]
   /\ ssh_state (dag_run leak_run) = TSuccess tt)
  /\ In instance_id (launched (create_calls (dag_run leak_run)))
  /\ term_calls (dag_run leak_run) = [TerminateInstances instance_id].
Proof.
  split; [split; reflexivity|].
  exact (proj1 (terminate_after_create leak_run) [instance_id] eq_refl
           ltac:(discriminate)
           ltac:(intros k; discriminate) ltac:(intros k; discriminate)
           ltac:(intros k; discriminate)).
Defined.

(** Claim C1 as stated fails, twice: the instance is created, the health
    check never returns, and no termination call is ever issued; and an
    instance launched by a creation attempt whose wait raised is never
    terminated, while the retry's instance is. *)
Lemma created_instance_not_terminated :
  (create_state (dag_run hang_run) = TSuccess [instance_id]
   /\ check_state (dag_run hang_run) = TNotDone
   /\ term_calls (dag_run hang_run) = [])
  /\ (launched (create_calls (dag_run leak_run)) = ["i-0leaked"; instance_id]
      /\ term_calls (dag_run leak_run) = [TerminateInstances instance_id]).
Proof. split; [split; [|split]|split]; reflexivity. Qed.

(** Claim C2: in a run where instance creation did not succeed, no
    termination call is issued. *)
Theorem no_terminate_without_create r
  (Hcreate : forall ids, create_state (dag_run r) <> TSuccess ids) :
  term_calls (dag_run r) = [].
Proof.
  simpl in Hcreate |- *. unfold term_of, schedule.
  destruct (forallb is_done _); [|reflexivity].
  rewrite terminate_task_calls.
  destruct (fst (create_of r)) as [ids| | |]; simpl; try reflexivity.
  exfalso. exact (Hcreate ids eq_refl).
Qed.

Lemma no_terminate_without_create_witness :
  create_state (dag_run create_fail_run) = TFailed
  /\ term_calls (dag_run create_fail_run) = [].
Proof.
  split; [reflexivity|].
  apply no_terminate_without_create. intros ids. simpl. discriminate.
Defined.

End DagFacts.

Module LogShipperFacts.
Import LogShipper.
Local Open Scope list_scope.

Definition log_root : string := "/opt/airflow/logs".
Definition today_day : Z := 20100.   (* 2025-01-13 *)

(** Two files dated today, one dated yesterday. *)
Definition sample_fs (p : string) : FileStat :=
  if String.eqb p "/opt/airflow/logs/a.log" then
    {| getmtime := Returns (20100 * 86400 + 3600)%Z; read := Returns "alpha" |}
  else if String.eqb p "/opt/airflow/logs/b.log" then
    {| getmtime := Returns (20100 * 86400 + 7200)%Z; read := Returns "beta" |}
  else {| getmtime := Returns (20099 * 86400)%Z; read := Returns "old" |}.

Definition sample_walk : list (string * list string) :=
  [(log_root, ["a.log"; "old.log"; "b.log"])].

(** A tree whose only today-dated file cannot be read. *)
Definition unreadable_fs (p : string) : FileStat :=
  {| getmtime := Returns (20100 * 86400)%Z; read := Raises "Permission denied" |}.

Definition unreadable_walk : list (string * list string) := [(log_root, ["a.log"])].

Example ship_sample :
  snd (fst (write_logs_s3 sample_cfg log_root sample_walk sample_fs today_day
              "2025-01-13_02-00-00" (Returns tt)))
  = [{| up_bucket := "fd-bucket";
        up_key := "logs/airflow_fraud_detection_logs/airflow_fd_logs_2025-01-13_02-00-00.txt";
        up_body := ("--- Log file: /opt/airflow/logs/a.log ---" ++ nl ++ "alpha" ++ nl ++ nl
                    ++ "--- Log file: /opt/airflow/logs/b.log ---" ++ nl ++ "beta" ++ nl ++ nl)%string |}].
Proof. reflexivity. Qed.

Example ship_nothing_sample :
  write_logs_s3 sample_cfg log_root [(log_root, ["old.log"])] sample_fs today_day
    "2025-01-13_02-00-00" (Returns tt)
  = (Done, [], [Info "Collecting today's logs from /opt/airflow/logs...";
                Info "No logs found for today."]).
Proof. reflexivity. Qed.

Lemma append_assoc_str (a b c : string) : ((a ++ b) ++ c = a ++ b ++ c)%string.
Proof. induction a as [|x a IH]; simpl; [reflexivity|]. rewrite IH. reflexivity. Qed.

Lemma length_append_str (a b : string) :
  String.length (a ++ b) = String.length a + String.length b.
Proof. induction a as [|x a IH]; simpl; auto. Qed.

Lemma getvalue_app w1 w2 : getvalue (w1 ++ w2) = (getvalue w1 ++ getvalue w2)%string.
Proof.
  induction w1 as [|x w1 IH]; [reflexivity|]. simpl. rewrite IH.
  symmetry. apply append_assoc_str.
Qed.

Lemma getvalue_single s : getvalue [s] = s.
Proof.
  unfold getvalue. simpl. induction s as [|x s IH]; simpl; [reflexivity|].
  rewrite IH. reflexivity.
Qed.

(** The strings one file contributes to the bundle. *)
Definition file_writes (fs : string -> FileStat) (today : Z) (p : string) : list string :=
  if today_dated fs today p then
    header p :: match read (fs p) with
                | Returns c => [c; (nl ++ nl)%string]
                | Raises _ => []
                end
  else [].

Lemma process_file_writes fs today p :
  fst (process_file fs today p) = file_writes fs today p.
Proof.
  unfold process_file, file_writes, today_dated.
  destruct (getmtime (fs p)); [|reflexivity].
  destruct (Z.eqb (utc_date a) today); [|reflexivity].
  destruct (read (fs p)); reflexivity.
Qed.

Lemma collect_flat fs today ps :
  collect fs today ps
  = (flat_map (file_writes fs today) ps, flat_map (fun p => snd (process_file fs today p)) ps).
Proof.
  induction ps as [|p ps IH]; [reflexivity|]. simpl. rewrite IH.
  rewrite <- process_file_writes. destruct (process_file fs today p); reflexivity.
Qed.

Lemma bundle_nonempty fs today ps :
  Nat.ltb 0 (String.length (getvalue (flat_map (file_writes fs today) ps)))
  = existsb (today_dated fs today) ps.
Proof.
  induction ps as [|p ps IH]; [reflexivity|].
  simpl. rewrite getvalue_app, length_append_str.
  unfold file_writes. destruct (today_dated fs today p); simpl; [reflexivity|].
  exact IH.
Qed.

Lemma write_logs_s3_eq cfg base walk fs today ts up :
  write_logs_s3 cfg base walk fs today ts up
  = let ps := walk_paths walk in
    let logs := flat_map (fun p => snd (process_file fs today p)) ps in
    let body := getvalue (flat_map (file_writes fs today) ps) in
    let start := [Info ("Collecting today's logs from " ++ base ++ "...")%string] in
    if existsb (today_dated fs today) ps then
      let s3_key := (S3_KEY_PREFIX ++ "/" ++ "airflow_fd_logs_" ++ ts ++ ".txt")%string in
      let u := {| up_bucket := BUCKET_NAME cfg; up_key := s3_key; up_body := body |} in
      let uploading := Info ("Uploading consolidated log file to S3: "
                               ++ BUCKET_NAME cfg ++ "/" ++ s3_key)%string in
      match up with
      | Returns _ => (Done, [u], start ++ logs ++ [uploading; Info "Today's logs uploaded to S3."])
      | Raises m => (Failed m, [u], start ++ logs ++
                       [uploading; Error ("Error during log collection or S3 upload: " ++ m)%string])
      end
    else (Done, [], start ++ logs ++ [Info "No logs found for today."]).
Proof.
  unfold write_logs_s3. rewrite collect_flat. cbv zeta.
  rewrite bundle_nonempty. reflexivity.
Qed.

Lemma in_flat_map_infix {A B} (f : A -> list B) x xs :
  In x xs -> exists l1 l2, flat_map f xs = l1 ++ f x ++ l2.
Proof.
  induction xs as [|y xs IH]; intros H; [contradiction|].
  destruct H as [->|H].
  - exists [], (flat_map f xs). reflexivity.
  - destruct (IH H) as (l1 & l2 & E). exists (f y ++ l1), l2. simpl. rewrite E.
    rewrite <- app_assoc. reflexivity.
Qed.

(** Claim C4 (as the code does it): the shipper uploads one object, under
    [logs/airflow_fraud_detection_logs/airflow_fd_logs_{timestamp}.txt], if
    and only if some visited file is dated today (UTC); its body is, in walk
    order over those files, the header line followed, when the file reads,
    by its content and a blank line.  With no today-dated file it uploads
    nothing and returns normally (no byte count is reported). *)
Theorem write_logs_s3_bundle cfg base walk fs today ts up :
  snd (fst (write_logs_s3 cfg base walk fs today ts up))
  = (if existsb (today_dated fs today) (walk_paths walk)
     then [{| up_bucket := BUCKET_NAME cfg;
              up_key := (S3_KEY_PREFIX ++ "/" ++ "airflow_fd_logs_" ++ ts ++ ".txt")%string;
              up_body := getvalue (flat_map (file_writes fs today) (walk_paths walk)) |}]
     else [])
  /\ (existsb (today_dated fs today) (walk_paths walk) = false ->
      fst (fst (write_logs_s3 cfg base walk fs today ts up)) = Done)
  /\ (forall p c, today_dated fs today p = true -> read (fs p) = Returns c ->
      file_writes fs today p = [header p; c; (nl ++ nl)%string])
  /\ (forall p, today_dated fs today p = false -> file_writes fs today p = []).
Proof.
  rewrite write_logs_s3_eq. cbv zeta. split; [|split; [|split]].
  - destruct (existsb _ _); [destruct up|]; reflexivity.
  - intros H. rewrite H. reflexivity.
  - intros p c Hd Hr. unfold file_writes. rewrite Hd, Hr. reflexivity.
  - intros p Hd. unfold file_writes. rewrite Hd. reflexivity.
Qed.

(** Claim C4 as stated fails: the only today-dated file cannot be read;
    the uploaded bundle is its header line alone, without the file's
    content. *)
Lemma unreadable_file_header_only :
  read (unreadable_fs "/opt/airflow/logs/a.log") = Raises "Permission denied"
  /\ snd (fst (write_logs_s3 sample_cfg log_root unreadable_walk unreadable_fs today_day
                "2025-01-13_02-00-00" (Returns tt)))
     = [{| up_bucket := "fd-bucket";
           up_key := "logs/airflow_fraud_detection_logs/airflow_fd_logs_2025-01-13_02-00-00.txt";
           up_body := header "/opt/airflow/logs/a.log" |}].
Proof. split; reflexivity. Qed.

(** Claim C8: whatever the other files do, every today-dated file that
    reads has its header, content and blank line, contiguous, in the single
    uploaded bundle; each today-dated file whose read raises is logged with
    a warning; a failing upload makes the task fail with that error. *)
Theorem write_logs_s3_partial_failure cfg base walk fs today ts up p c
  (Hin : In p (walk_paths walk)) (Hd : today_dated fs today p = true)
  (Hr : read (fs p) = Returns c) :
  (exists body w1 w2,
      snd (fst (write_logs_s3 cfg base walk fs today ts up))
      = [{| up_bucket := BUCKET_NAME cfg;
            up_key := (S3_KEY_PREFIX ++ "/" ++ "airflow_fd_logs_" ++ ts ++ ".txt")%string;
            up_body := body |}]
      /\ body = (w1 ++ (header p ++ c ++ nl ++ nl) ++ w2)%string)
  /\ (forall q m, In q (walk_paths walk) -> today_dated fs today q = true ->
        read (fs q) = Raises m ->
        In (warning q m) (snd (write_logs_s3 cfg base walk fs today ts up)))
  /\ (forall m, up = Raises m -> fst (fst (write_logs_s3 cfg base walk fs today ts up)) = Failed m).
Proof.
  assert (Hex : existsb (today_dated fs today) (walk_paths walk) = true).
  { apply existsb_exists. exists p. auto. }
  rewrite write_logs_s3_eq. cbv zeta. rewrite Hex. split; [|split].
  - destruct (in_flat_map_infix (file_writes fs today) p _ Hin) as (l1 & l2 & E).
    eexists. exists (getvalue l1), (getvalue l2). split.
    + destruct up; reflexivity.
    + rewrite E, !getvalue_app. unfold file_writes. rewrite Hd, Hr. simpl.
      rewrite !append_assoc_str. reflexivity.
  - intros q m Hq Hdq Hrq.
    assert (Hw : In (warning q m) (flat_map (fun p => snd (process_file fs today p))
                                          (walk_paths walk))).
    { apply in_flat_map. exists q. split; [exact Hq|].
      unfold process_file. unfold today_dated in Hdq.
      destruct (getmtime (fs q)); [|discriminate].
      rewrite Hdq, Hrq. simpl. auto. }
    destruct up; simpl; right; apply in_or_app; left; exact Hw.
  - intros m ->. reflexivity.
Qed.

(** A tree with one unreadable and one readable file, both dated today. *)
Definition mixed_fs (p : string) : FileStat :=
  if String.eqb p "/opt/airflow/logs/a.log" then
    {| getmtime := Returns (20100 * 86400)%Z; read := Raises "Permission denied" |}
  else {| getmtime := Returns (20100 * 86400 + 60)%Z; read := Returns "beta" |}.

Lemma write_logs_s3_partial_failure_witness :
  (In "/opt/airflow/logs/b.log" (walk_paths [(log_root, ["a.log"; "b.log"])])
   /\ today_dated mixed_fs today_day "/opt/airflow/logs/b.log" = true
   /\ read (mixed_fs "/opt/airflow/logs/b.log") = Returns "beta")
  /\ fst (fst (write_logs_s3 sample_cfg log_root [(log_root, ["a.log"; "b.log"])] mixed_fs
                 today_day "2025-01-13_02-00-00" (Raises "AccessDenied")))
     = Failed "AccessDenied".
Proof.
  split; [split; [simpl; auto | split; reflexivity]|].
  apply (proj2 (proj2 (write_logs_s3_partial_failure sample_cfg log_root
                     [(log_root, ["a.log"; "b.log"])] mixed_fs today_day
                     "2025-01-13_02-00-00" (Raises "AccessDenied") "/opt/airflow/logs/b.log" "beta"
                     ltac:(simpl; auto) eq_refl eq_refl))).
  reflexivity.
Defined.

(** Claim C10: the header line is written before the file is opened, so
    for every today-dated file whose read raises, whatever the other files
    do, an upload is made and its bundle holds that file's header line,
    followed by nothing of the file (a failing [read] returns no partial
    content) but directly by the next file's strings.  In particular, when
    every today-dated file fails to read, the bundle is the non-empty
    sequence of their headers and it is still uploaded. *)
Theorem write_logs_s3_unreadable_headers cfg base walk fs today ts up q m
  (Hin : In q (walk_paths walk)) (Hd : today_dated fs today q = true)
  (Hr : read (fs q) = Raises m) :
  (exists w1 w2,
      flat_map (file_writes fs today) (walk_paths walk) = w1 ++ [header q] ++ w2
      /\ snd (fst (write_logs_s3 cfg base walk fs today ts up))
         = [{| up_bucket := BUCKET_NAME cfg;
               up_key := (S3_KEY_PREFIX ++ "/" ++ "airflow_fd_logs_" ++ ts ++ ".txt")%string;
               up_body := (getvalue w1 ++ header q ++ getvalue w2)%string |}])
  /\ file_writes fs today q = [header q]
  /\ ((forall q', In q' (walk_paths walk) -> today_dated fs today q' = true ->
          readable fs q' = false) ->
      snd (fst (write_logs_s3 cfg base walk fs today ts up))
      = [{| up_bucket := BUCKET_NAME cfg;
            up_key := (S3_KEY_PREFIX ++ "/" ++ "airflow_fd_logs_" ++ ts ++ ".txt")%string;
            up_body := getvalue (map header (filter (today_dated fs today) (walk_paths walk))) |}]
      /\ getvalue (map header (filter (today_dated fs today) (walk_paths walk))) <> EmptyString).
Proof.
  assert (Hq : file_writes fs today q = [header q]).
  { unfold file_writes. rewrite Hd, Hr. reflexivity. }
  assert (Hex : existsb (today_dated fs today) (walk_paths walk) = true).
  { apply existsb_exists. exists q. auto. }
  split; [|split; [exact Hq|]].
  - destruct (in_flat_map_infix (file_writes fs today) q _ Hin) as (l1 & l2 & E).
    rewrite Hq in E. exists l1, l2. split; [exact E|].
    rewrite write_logs_s3_eq. cbv zeta. rewrite Hex, E, !getvalue_app, getvalue_single.
    destruct up; reflexivity.
  - intros Hall.
    assert (Hw : flat_map (file_writes fs today) (walk_paths walk)
                 = map header (filter (today_dated fs today) (walk_paths walk))).
    { clear Hin Hex. induction (walk_paths walk) as [|x xs IH]; [reflexivity|].
      simpl. rewrite IH by (intros; apply Hall; simpl; auto).
      unfold file_writes. destruct (today_dated fs today x) eqn:Hx; [|reflexivity].
      specialize (Hall x (or_introl eq_refl) Hx). unfold readable in Hall.
      destruct (read (fs x)); [discriminate|reflexivity]. }
    rewrite write_logs_s3_eq. cbv zeta. rewrite Hex, Hw. split.
    + destruct up; reflexivity.
    + assert (Hin' : In q (filter (today_dated fs today) (walk_paths walk)))
        by (apply filter_In; auto).
      destruct (filter (today_dated fs today) (walk_paths walk)) as [|x xs];
        [contradiction|]. simpl. unfold header. discriminate.
Qed.

Lemma write_logs_s3_unreadable_headers_witness :
  (In "/opt/airflow/logs/a.log" (walk_paths [(log_root, ["a.log"; "b.log"])])
   /\ today_dated mixed_fs today_day "/opt/airflow/logs/a.log" = true
   /\ read (mixed_fs "/opt/airflow/logs/a.log") = Raises "Permission denied")
  /\ file_writes mixed_fs today_day "/opt/airflow/logs/a.log"
     = [header "/opt/airflow/logs/a.log"].
Proof.
  split; [split; [simpl; auto | split; reflexivity]|].
  exact (proj1 (proj2 (write_logs_s3_unreadable_headers sample_cfg log_root
                     [(log_root, ["a.log"; "b.log"])] mixed_fs today_day
                     "2025-01-13_02-00-00" (Returns tt) "/opt/airflow/logs/a.log"
                     "Permission denied" ltac:(simpl; auto) eq_refl eq_refl))).
Defined.

End LogShipperFacts.

(** * Further properties of the DAG code *)

Module JenkinsExtra.
Import Jenkins JenkinsFacts.
Local Open Scope list_scope.

(** Shape of the polling loop's trace: it sleeps 30 s after every
    still-building response and only then.  It is still polling exactly
    when every response so far was a still-building one; otherwise it
    stopped at the first other response, with no sleep after it and no
    request beyond it. *)
Theorem poll_loop_trace url rs :
  match fst (poll_loop url rs) with
  | Pending =>
      forallb still_building rs = true /\ snd (poll_loop url rs) = building_trace url rs
  | _ =>
      exists pre r rest, rs = pre ++ r :: rest /\ forallb still_building pre = true
        /\ still_building r = false
        /\ snd (poll_loop url rs) = building_trace url pre ++ [HttpGet url]
  end.
Proof.
  induction rs as [|r rs IH]; [simpl; auto|].
  simpl. unfold still_building at 2.
  destruct (Z.eqb (build_status_code r) 200) eqn:Hc.
  - destruct (building r) eqn:Hb; simpl.
    + destruct (poll_loop url rs) as [o tr] eqn:E. simpl in IH |- *.
      destruct o; [| |].
      1-2: destruct IH as (pre & r' & rest & -> & Hpre & Hr' & Htr);
           exists (r :: pre), r', rest; split; [reflexivity|];
           split; [simpl; unfold still_building at 1; rewrite Hc, Hb; exact Hpre|];
           split; [exact Hr'|]; simpl; rewrite Htr; reflexivity.
      destruct IH as [Hall Htr]. split.
      * simpl. unfold still_building at 1. rewrite Hc, Hb. exact Hall.
      * simpl. rewrite Htr. reflexivity.
    + destruct (result r) as [s|]; [destruct (String.eqb s "SUCCESS")|]; simpl;
        exists [], r, rs; unfold still_building; rewrite Hc, Hb; auto.
  - simpl. exists [], r, rs. unfold still_building. rewrite Hc. auto.
Qed.

End JenkinsExtra.

Module Ec2Extra.
Import Ec2Status Ec2StatusFacts.
Local Open Scope list_scope.

(** Shape of the health-check loop's trace: every describe call is
    followed by a 15 s sleep, including the call that sees both checks
    ["ok"]; the loop is still waiting exactly when no response so far was
    ok, and otherwise it returned on the first ok response. *)
Theorem check_loop_trace rs :
  match fst (check_loop rs) with
  | Pending =>
      forallb (fun r => negb (poll_ok r)) rs = true /\ snd (check_loop rs) = waiting_trace rs
  | Returned b =>
      b = true /\
      exists pre r rest, rs = pre ++ r :: rest
        /\ forallb (fun r => negb (poll_ok r)) pre = true /\ poll_ok r = true
        /\ snd (check_loop rs) = waiting_trace (pre ++ [r])
  end.
Proof.
  induction rs as [|r rs IH]; [simpl; auto|].
  simpl. destruct (match r with e :: _ => entry_ok e | [] => false end) eqn:Hr.
  - simpl. split; [reflexivity|]. exists [], r, rs. unfold poll_ok. rewrite Hr. auto.
  - destruct (check_loop rs) as [o tr] eqn:E. simpl in IH |- *.
    assert (Hn : negb (poll_ok r) = true) by (unfold poll_ok; rewrite Hr; reflexivity).
    destruct o.
    + destruct IH as [-> (pre & r' & rest & -> & Hpre & Hr' & Htr)].
      split; [reflexivity|]. exists (r :: pre), r', rest.
      split; [reflexivity|]. split; [simpl; rewrite Hn, Hpre; reflexivity|].
      split; [exact Hr'|]. simpl. rewrite Htr. reflexivity.
    + destruct IH as [Hall Htr]. simpl. rewrite Hn, Hall, Htr. auto.
Qed.

(** Only the first element of [InstanceStatuses] is looked at: two response
    sequences that agree on the first entry of every response give the same
    outcome and the same calls. *)
Theorem check_loop_first_entry_only rs rs' :
  map (fun r => hd_error r) rs = map (fun r => hd_error r) rs' ->
  check_loop rs = check_loop rs'.
Proof.
  revert rs'. induction rs as [|r rs IH]; intros [|r' rs'] H; try discriminate;
    [reflexivity|].
  simpl in H. injection H as Hh Ht. simpl. rewrite (IH rs' Ht).
  destruct r as [|e es], r' as [|e' es']; simpl in Hh; try discriminate; [reflexivity|].
  injection Hh as ->. reflexivity.
Qed.

Lemma check_loop_first_entry_only_witness :
  check_loop [[initializing; healthy]; [healthy]] = check_loop [[initializing]; [healthy; initializing]].
Proof. apply check_loop_first_entry_only. reflexivity. Defined.

End Ec2Extra.

Module DagExtra.
Import Dag DagFacts.
Local Open Scope list_scope.

(** A failed Jenkins poll stops the pipeline before any instance exists:
    creation and every success-gated task are marked upstream_failed; the
    [ALL_DONE] terminate task still runs, fails to render its template on
    both attempts and calls nothing; log shipping does not run. *)
Theorem poll_failure_stops_pipeline r (Hpoll : poll_state (dag_run r) = TFailed) :
  create_state (dag_run r) = TUpstreamFailed
  /\ check_state (dag_run r) = TUpstreamFailed
  /\ ip_state (dag_run r) = TUpstreamFailed
  /\ ssh_state (dag_run r) = TUpstreamFailed
  /\ term_state (dag_run r) = TFailed
  /\ term_calls (dag_run r) = []
  /\ logs_state (dag_run r) = TUpstreamFailed.
Proof.
  simpl in Hpoll |- *.
  assert (Hc : create_of r = (TUpstreamFailed, [])).
  { unfold create_of, schedule. rewrite Hpoll. reflexivity. }
  assert (Hk : check_of r = (TUpstreamFailed, [])).
  { unfold check_of, schedule. rewrite Hc. reflexivity. }
  assert (Hi : ip_of r = (TUpstreamFailed, [])).
  { unfold ip_of, schedule. rewrite Hc. reflexivity. }
  assert (Hs : ssh_of r = (TUpstreamFailed, [])).
  { unfold ssh_of, schedule. rewrite Hi. reflexivity. }
  assert (Ht : term_of r = (TFailed, [])).
  { unfold term_of, schedule. rewrite Hs, Hc. reflexivity. }
  unfold logs_of, schedule. rewrite Hc, Hk, Hi, Hs, Ht. repeat split.
Qed.

Definition poll_fail_run : Run := {|
  poll_att := fun _ => ARaise; create_att := fun _ => Launched [instance_id] (ARet tt);
  check_att := fun _ => ARet tt; ip_att := fun _ => ARet tt;
  ssh_att := fun _ => ARet tt; term_wait := fun _ => true;
  logs_att := fun _ => ARet tt |}.

Lemma poll_failure_stops_pipeline_witness :
  create_state (dag_run poll_fail_run) = TUpstreamFailed.
Proof. exact (proj1 (poll_failure_stops_pipeline poll_fail_run eq_refl)). Defined.

(** In every run the terminate task calls [terminate_instances] at most
    twice, and only ever on the first instance id that the create task
    returned. *)
Theorem terminate_calls_target r :
  length (term_calls (dag_run r)) <= 2
  /\ forall c, In c (term_calls (dag_run r)) ->
       exists id rest, create_state (dag_run r) = TSuccess (id :: rest)
                       /\ c = TerminateInstances id.
Proof.
  simpl. unfold term_of, schedule.
  destruct (forallb is_done _); [|simpl; split; [lia | intros c []]].
  rewrite terminate_task_calls. unfold render_instance_ids, xcom_create.
  destruct (fst (create_of r)) as [ids| | |]; try (simpl; split; [lia | intros c []]).
  destruct ids as [|id rest]; [simpl; split; [lia | intros c []]|].
  destruct (term_wait r 0); simpl; (split; [lia|]);
    intros c H; exists id, rest; split; auto; intuition congruence.
Qed.

(** When instance creation fails, the training tasks are upstream_failed,
    the terminate task fails (its template has no instance id) and so log
    shipping never runs. *)
Theorem create_failure_skips_logs r (Hc : create_state (dag_run r) = TFailed) :
  ssh_state (dag_run r) = TUpstreamFailed
  /\ term_state (dag_run r) = TFailed
  /\ logs_state (dag_run r) = TUpstreamFailed.
Proof.
  simpl in Hc |- *.
  assert (Hk : fst (check_of r) = TUpstreamFailed).
  { unfold check_of, schedule. rewrite Hc. reflexivity. }
  assert (Hi : fst (ip_of r) = TUpstreamFailed).
  { unfold ip_of, schedule. rewrite Hc. reflexivity. }
  assert (Hs : fst (ssh_of r) = TUpstreamFailed).
  { unfold ssh_of, schedule. rewrite Hi. reflexivity. }
  assert (Ht : fst (term_of r) = TFailed).
  { unfold term_of, schedule. rewrite Hs, Hc. reflexivity. }
  split; [exact Hs|]. split; [exact Ht|].
  unfold logs_of, schedule. rewrite Ht. reflexivity.
Qed.

Lemma create_failure_skips_logs_witness :
  logs_state (dag_run create_fail_run) = TUpstreamFailed.
Proof. exact (proj2 (proj2 (create_failure_skips_logs create_fail_run eq_refl))). Defined.

End DagExtra.

Module LogShipperExtra.
Import LogShipper LogShipperFacts.
Local Open Scope list_scope.

(** A file counts as today's exactly when its mtime lies in the UTC day
    [today], i.e. in [[today * 86400, today * 86400 + 86400)]; a file whose
    mtime cannot be read never counts. *)
Theorem today_dated_window fs today p :
  today_dated fs today p = true <->
  exists t, getmtime (fs p) = Returns t
            /\ (today * 86400 <= t < today * 86400 + 86400)%Z.
Proof.
  unfold today_dated, utc_date. destruct (getmtime (fs p)) as [t|m].
  - rewrite Z.eqb_eq. split.
    + intros H. exists t. split; [reflexivity|].
      pose proof (Z.div_mod t 86400 ltac:(lia)) as E.
      pose proof (Z.mod_pos_bound t 86400 ltac:(lia)) as B. lia.
    + intros (t' & Ht & B). injection Ht as <-. symmetry.
      apply Z.div_unique_pos with (r := (t - today * 86400)%Z); lia.
  - split; [discriminate|]. intros (t & Ht & _). discriminate.
Qed.

Lemma today_dated_window_witness :
  today_dated sample_fs today_day "/opt/airflow/logs/b.log" = true.
Proof.
  apply (proj2 (today_dated_window sample_fs today_day "/opt/airflow/logs/b.log")).
  exists (20100 * 86400 + 7200)%Z. split; [reflexivity|]. unfold today_day. lia.
Defined.

(** A file not dated today is never opened: changing what reading such
    files would do changes neither the bundle, the upload nor the logs. *)
Theorem non_today_files_not_read cfg base walk fs fs' today ts up
  (Hm : forall p, getmtime (fs p) = getmtime (fs' p))
  (Hr : forall p, today_dated fs today p = true -> read (fs p) = read (fs' p)) :
  write_logs_s3 cfg base walk fs today ts up = write_logs_s3 cfg base walk fs' today ts up.
Proof.
  assert (Hp : forall p, process_file fs today p = process_file fs' today p).
  { intros p. unfold process_file. rewrite <- Hm.
    destruct (getmtime (fs p)) as [t|m] eqn:Et; [|reflexivity].
    destruct (Z.eqb (utc_date t) today) eqn:Ed; [|reflexivity].
    rewrite Hr; [reflexivity|]. unfold today_dated. rewrite Et. exact Ed. }
  assert (Hc : forall ps, collect fs today ps = collect fs' today ps).
  { induction ps as [|p ps IH]; [reflexivity|]. simpl. rewrite Hp, IH. reflexivity. }
  unfold write_logs_s3. rewrite Hc. reflexivity.
Qed.

(** [sample_fs] with the yesterday-dated file made unreadable. *)
Definition sample_fs_locked (p : string) : FileStat :=
  if String.eqb p "/opt/airflow/logs/old.log" then
    {| getmtime := getmtime (sample_fs p); read := Raises "Permission denied" |}
  else sample_fs p.

Lemma non_today_files_not_read_witness :
  write_logs_s3 sample_cfg log_root sample_walk sample_fs today_day "2025-01-13_02-00-00" (Returns tt)
  = write_logs_s3 sample_cfg log_root sample_walk sample_fs_locked today_day
      "2025-01-13_02-00-00" (Returns tt).
Proof.
  apply non_today_files_not_read.
  - intros p. unfold sample_fs_locked. destruct (String.eqb p "/opt/airflow/logs/old.log"); reflexivity.
  - intros p Hd. unfold sample_fs_locked.
    destruct (String.eqb p "/opt/airflow/logs/old.log") eqn:E; [|reflexivity].
    apply String.eqb_eq in E. subst p. vm_compute in Hd. discriminate.
Defined.

End LogShipperExtra.

Module ReportingExtra.
Import LogShipper Reporting.
Local Open Scope list_scope.

(** [generate_and_upload_report] fails only when reading the CSV or the
    POST itself raises; any HTTP status, 200 or not, ends the task
    successfully.  It posts at most once, to
    [{EVIDENTLY_BASE_URL}/projects/{EVIDENTLY_PROJECT_ID}/datasets], and
    reads [LOCAL_FILE_PATH] whatever filename it is given. *)
Theorem report_task_outcome cfg filename csv post :
  fst (generate_and_upload_report cfg filename csv post)
  = match csv with
    | Raises m => Raises m
    | Returns _ => match post with Raises m => Raises m | Returns _ => Returns tt end
    end
  /\ length (filter is_post (snd (generate_and_upload_report cfg filename csv post))) <= 1
  /\ (forall url json, In (Post url json) (snd (generate_and_upload_report cfg filename csv post)) ->
        url = upload_data_url cfg)
  /\ hd_error (snd (generate_and_upload_report cfg filename csv post))
     = Some (ReadCsv (LOCAL_FILE_PATH cfg)).
Proof.
  unfold generate_and_upload_report.
  destruct csv as [data|m].
  - destruct post as [resp|m].
    + destruct (Z.eqb (status_code resp) 200); simpl;
        (split; [reflexivity|]); (split; [lia|]); (split; [|reflexivity]);
        intros url json H; intuition congruence.
    + simpl. (split; [reflexivity|]); (split; [lia|]); (split; [|reflexivity]);
        intros url json H; intuition congruence.
  - simpl. (split; [reflexivity|]); (split; [lia|]); (split; [|reflexivity]);
      intros url json H; intuition congruence.
Qed.

End ReportingExtra.
